(** * interview-guides: the login guard, the dictionary walkthrough and the
      lambda examples

    A shallow embedding of [decorators.py], [dictionary.py] and
    [lambda_practice.py].

    - Python values are [None], booleans, unbounded integers, strings, and
      any other object, which is given by what the two operations the
      scripts apply to a value do on it: the test [== False] and the
      conversion to text.  Both may raise.
    - A [dict] is an insertion-ordered association list with string keys, as
      CPython keeps it: assigning an existing key replaces the value where it
      stands, a new key goes to the end.
    - A record is an object: functions receive a reference to it, and the
      world maps references to the mappings they denote.
    - A Python function of one record is a state transformer over that world
      that either returns a value or raises. *)

From Stdlib Require Import ZArith String List Bool Lia DecimalString.
Import ListNotations.

Local Open Scope string_scope.
Local Open Scope list_scope.

(* ================================================================== *)
(** ** Python values *)

Module Py.

(** Exceptions carry their class name and message. *)
Record exn : Type := Exception { exn_class : string; exn_msg : string }.

(** What evaluating an expression gives: a result, or an exception. *)
Inductive result (A : Type) : Type :=
| Ok (a : A)
| Err (e : exn).

Arguments Ok {A} a.
Arguments Err {A} e.

(** An object that is not [None], a boolean, an integer or a string (a
    float, a [Decimal], a list, an instance of a class of the caller), as
    far as the scripts can tell: whether the test [if (o == False)]
    succeeds, fails or raises, and what [format(o, "")] gives.  The methods
    behind the two are taken to have no other effect. *)
Record object : Type :=
  Object { obj_eq_False : result bool; obj_str : result string }.

Inductive value : Type :=
| PNone
| PBool (b : bool)
| PInt (n : Z)
| PStr (s : string)
| PObj (o : object).

Definition is_object (v : value) : bool :=
  match v with
  | PObj _ => true
  | _ => false
  end.

(** [bool] is a subclass of [int]: [False] is 0 and [True] is 1. *)
Definition int_of_bool (b : bool) : Z := if b then 1%Z else 0%Z.

(** The test [v == False].  Booleans and integers compare by number, so
    [False] and [0] are equal to [False]; [None] and strings are not; any
    other object answers for itself. *)
Definition eq_False (v : value) : result bool :=
  match v with
  | PNone => Ok false
  | PBool b => Ok (Z.eqb (int_of_bool b) (int_of_bool false))
  | PInt n => Ok (Z.eqb n (int_of_bool false))
  | PStr _ => Ok false
  | PObj o => obj_eq_False o
  end.

(** The most decimal digits an integer may have when it is turned into
    text, as the interpreter starts with. *)
Definition int_max_str_digits : Z := 4300.

Definition int_str_error : exn :=
  Exception "ValueError"
    "Exceeds the limit (4300 digits) for integer string conversion; use sys.set_int_max_str_digits() to increase the limit".

(** [format(v, "")], which is what a replacement field of an f-string
    inserts: [str(v)], refused for an integer of too many digits. *)
Definition py_str (v : value) : result string :=
  match v with
  | PNone => Ok "None"
  | PBool true => Ok "True"
  | PBool false => Ok "False"
  | PInt n =>
      if (Z.abs n <? 10 ^ int_max_str_digits)%Z
      then Ok (NilZero.string_of_int (Z.to_int n))
      else Err int_str_error
  | PStr s => Ok s
  | PObj o => obj_str o
  end.

Inductive outcome : Type :=
| Return (v : value)
| Raise (e : exn).

(** Two objects of the standard library: the float [0.0], which is equal
    to [False], and the signalling not-a-number of [decimal], which no
    comparison accepts. *)
Definition float_zero : value :=
  PObj (Object (Ok true) (Ok "0.0")).


End Py.

(* ================================================================== *)
(** ** Insertion-ordered dictionaries *)

Module Dict.
Import Py.

Definition dict : Type := list (string * value).

(** Key lookup, [None] when the key is absent. *)
Fixpoint lookup (k : string) (d : dict) : option value :=
  match d with
  | [] => None
  | (k', v) :: rest => if String.eqb k k' then Some v else lookup k rest
  end.

(** [d.get(k, default)] *)
Definition get_default (d : dict) (k : string) (default : value) : value :=
  match lookup k d with
  | Some v => v
  | None => default
  end.

(** [d.get(k)]: the default is [None]. *)
Definition get (d : dict) (k : string) : value := get_default d k PNone.

(** [d[k] = v] *)
Fixpoint setitem (k : string) (v : value) (d : dict) : dict :=
  match d with
  | [] => [(k, v)]
  | (k', v') :: rest =>
      if String.eqb k k' then (k', v) :: rest
      else (k', v') :: setitem k v rest
  end.

(** A literal [{k1: v1, ..., kn: vn}] stores its items from left to right. *)
Definition literal (kvs : list (string * value)) : dict :=
  fold_left (fun d kv => setitem (fst kv) (snd kv) d) kvs [].

Definition keys (d : dict) : list string := map fst d.
Definition values (d : dict) : list value := map snd d.
Definition items (d : dict) : list (string * value) := d.

(** [d.update(other)]: every item of [other] is stored into [d]. *)
Definition update (d other : dict) : dict :=
  fold_left (fun d kv => setitem (fst kv) (snd kv) d) (items other) d.

Definition mem (k : string) (d : dict) : bool :=
  match lookup k d with Some _ => true | None => false end.

End Dict.

(* ================================================================== *)
(** ** decorators.py *)

Module Decorators.
Import Py Dict.

(** Records are objects.  A caller hands over a reference, and the world
    tells which mapping the reference denotes at that moment; a function
    that is called may change the world, the records in it included. *)
Class Store (World Ref : Type) : Type :=
  deref : World -> Ref -> dict.

(** A function of one record, over the world it may read and change. *)
Definition py_func (World Ref : Type) : Type :=
  Ref -> World -> outcome * World.

Definition denial_marker : value := PStr "Access Denied".

(** The test of the [if], on the mapping [user] denotes:
    [user.get("isLoggedIn") == False]. *)
Definition denied (record : dict) : result bool :=
  eq_False (get record "isLoggedIn").

(** A world with a counter next to it, for spying on calls. *)
Record counted (World : Type) : Type :=
  Counted { inner : World; calls : nat }.

Arguments Counted {World} inner calls.
Arguments inner {World} c.
Arguments calls {World} c.

#[export] Instance counted_store {World Ref : Type} {store : Store World Ref}
  : Store (counted World) Ref :=
  fun c r => deref (inner c) r.

Section Guard.
Context {World Ref : Type} {store : Store World Ref}.

Definition wrapper (func : py_func World Ref) : py_func World Ref :=
  fun user w =>
    match denied (deref w user) with
    | Err e => (Raise e, w)
    | Ok true => (Return denial_marker, w)
    | Ok false => func user w
    end.

Definition require_login (func : py_func World Ref) : py_func World Ref :=
  wrapper func.

(** The body of [access_dashboard] before it is decorated. *)
Definition access_dashboard_body : py_func World Ref :=
  fun user w =>
    match py_str (get (deref w user) "name") with
    | Err e => (Raise e, w)
    | Ok name =>
        (Return (PStr ("Welcome " ++ name ++ ". Access to the dashboard.")),
         w)
    end.

(** The name [access_dashboard] after [@require_login]. *)
Definition access_dashboard : py_func World Ref :=
  require_login access_dashboard_body.


(** A spy around [func]: the counter goes up by one each time [func] is
    reached. *)
Definition spy (func : py_func World Ref) : py_func (counted World) Ref :=
  fun user c =>
    let '(r, w') := func user (inner c) in
    (r, Counted w' (S (calls c))).


End Guard.

(** The objects of a run, by address. *)
Definition heap : Type := list dict.

#[export] Instance heap_store : Store heap nat :=
  fun h a => nth a h [].

Fixpoint store_at (a : nat) (d : dict) (h : heap) : heap :=
  match h, a with
  | [], _ => []
  | _ :: rest, O => d :: rest
  | d0 :: rest, S a' => d0 :: store_at a' d rest
  end.

(** An operation with an effect on its argument: it logs the caller out,
    [user["isLoggedIn"] = False], and says goodbye. *)
Definition logout_op : py_func heap nat :=
  fun user h =>
    (Return (PStr "bye"),
     store_at user (setitem "isLoggedIn" (PBool false) (deref h user)) h).

(** The two records of the script: [user1] and [user2] name the first and
    the second object of the heap. *)
Definition globals : heap :=
  [ literal [("name", PStr "Dheeraj"); ("isLoggedIn", PBool true)];
    literal [("name", PStr "Guest"); ("isLoggedIn", PBool false)] ].
Definition user1 : nat := 0.
Definition user2 : nat := 1.

(** Records the script does not build, for the cases it leaves out: no
    login attribute at all, and an attribute that is not a boolean. *)
Definition user_without_flag : dict :=
  literal [("name", PStr "Guest")].
Definition user_zero_flag : dict :=
  literal [("name", PStr "Guest"); ("isLoggedIn", PInt 0)].
Definition user_none_flag : dict :=
  literal [("name", PStr "Guest"); ("isLoggedIn", PNone)].
Definition user_empty_flag : dict :=
  literal [("name", PStr "Guest"); ("isLoggedIn", PStr EmptyString)].
Definition user_float_zero_flag : dict :=
  literal [("name", PStr "Guest"); ("isLoggedIn", float_zero)].

(** [print(v)]: the text is added to what was written, unless turning [v]
    into text raises. *)
Definition py_print (v : value) (out : list string) : result (list string) :=
  match py_str v with
  | Ok text => Ok (out ++ [text])
  | Err e => Err e
  end.

(** The two [print] lines that end the script: the texts written, then the
    exception that stopped the script if one did, and the heap it left. *)
Definition main (h : heap) : list string * option exn * heap :=
  match access_dashboard user1 h with
  | (Raise e, h1) => ([], Some e, h1)
  | (Return v1, h1) =>
      match py_print v1 [] with
      | Err e => ([], Some e, h1)
      | Ok out1 =>
          match access_dashboard user2 h1 with
          | (Raise e, h2) => (out1, Some e, h2)
          | (Return v2, h2) =>
              match py_print v2 out1 with
              | Err e => (out1, Some e, h2)
              | Ok out2 => (out2, None, h2)
              end
          end
      end
  end.

End Decorators.

(* ================================================================== *)
(** ** dictionary.py *)

Module Dictionary.
Import Py Dict.

(** The object bound to [person] when the script starts. *)
Definition person : dict :=
  literal [("name", PStr "Alice"); ("age", PInt 25)].

(** [objKeys = person.keys()] is a live view: it is read off the object as
    it is when the view is looked at. *)
Definition objKeys (current : dict) : list string := keys current.

Definition get_age (current : dict) : value :=
  get_default current "age" (PInt 0).
Definition get_city (current : dict) : value :=
  get_default current "city" (PStr "NA").

(** [person.update({"city": "NY"})] changes the object in place: the
    statement maps the object before to the object after. *)
Definition update_city (current : dict) : dict :=
  update current (literal [("city", PStr "NY")]).

(** The object bound to [person] when the script ends. *)
Definition person_final : dict := update_city person.

End Dictionary.

(* ================================================================== *)
(** ** lambda_practice.py *)

Module LambdaPractice.

(** What [x ** n] gives on two integers.  A negative exponent leaves the
    integers: CPython turns the base and then the exponent into floats, which
    fails for an integer too large for a float, and hands them to the float
    power, which refuses a zero base; the float it computes otherwise is
    kept symbolic. *)
Inductive pow_result : Type :=
| IntResult (n : Z)
| FloatPow (base exponent : Z)
| ZeroDivisionError
| OverflowError.

(** [float(z)] succeeds when [z], rounded to 53 bits to the nearest, ties to
    even, stays below [2 ** 1024]. *)
Definition fits_float (z : Z) : bool :=
  (Z.abs z <? 2 ^ 1024 - 2 ^ 970)%Z.

Definition py_pow (x n : Z) : pow_result :=
  if (n <? 0)%Z then
    if negb (fits_float x) then OverflowError
    else if negb (fits_float n) then OverflowError
    else if (x =? 0)%Z then ZeroDivisionError
    else FloatPow x n
  else IntResult (x ^ n).

(** [square = lambda x: x*x], the first binding of the name. *)
Definition square (x : Z) : Z := (x * x)%Z.

Definition add (a b : Z) : Z := (a + b)%Z.

(** [power(num)] returns a closure over [num]. *)
Definition power (num : Z) : Z -> pow_result :=
  fun x => py_pow x num.

(** [square = power(2)], the second binding of the name. *)
Definition square_by_power : Z -> pow_result := power 2.
Definition cube : Z -> pow_result := power 3.

Definition nums : list Z := [1; 2; 3; 4]%Z.
Definition squares : list pow_result := map (fun x => py_pow x 2) nums.

(** The meaning of [x ** n] read as mathematics: the product of [k] copies
    of [x].  This follows the words of the specification, not the code. *)
Fixpoint repeated_product (x : Z) (k : nat) : Z :=
  match k with
  | O => 1%Z
  | S k' => (x * repeated_product x k')%Z
  end.

End LambdaPractice.

(* ================================================================== *)
(** ** Facts about dictionaries *)

Module DictFacts.
Import Py Dict.

Lemma lookup_setitem (k k' : string) (v : value) (d : dict) :
  lookup k' (setitem k v d) =
  if String.eqb k' k then Some v else lookup k' d.
Proof.
  induction d as [| [k0 v0] rest IH]; simpl.
  - reflexivity.
  - destruct (String.eqb k k0) eqn:Ekk0; simpl.
    + apply String.eqb_eq in Ekk0; subst k0.
      destruct (String.eqb k' k); reflexivity.
    + rewrite IH.
      destruct (String.eqb k' k0) eqn:Ek'k0; [| reflexivity].
      apply String.eqb_eq in Ek'k0; subst k0.
      rewrite String.eqb_sym, Ekk0. reflexivity.
Qed.

Lemma lookup_setitem_same (k : string) (v : value) (d : dict) :
  lookup k (setitem k v d) = Some v.
Proof. rewrite lookup_setitem, String.eqb_refl. reflexivity. Qed.

Lemma lookup_setitem_other (k k' : string) (v : value) (d : dict) :
  k' <> k -> lookup k' (setitem k v d) = lookup k' d.
Proof.
  intros Hne. rewrite lookup_setitem.
  apply String.eqb_neq in Hne. rewrite Hne. reflexivity.
Qed.

(** Storing a key never loses a key. *)
Lemma mem_setitem_mono (k k' : string) (v : value) (d : dict) :
  mem k' d = true -> mem k' (setitem k v d) = true.
Proof.
  unfold mem. rewrite lookup_setitem.
  destruct (String.eqb k' k); [reflexivity | auto].
Qed.

(** The order of the keys: an old key keeps its place, a new one is last. *)
Lemma keys_setitem (k : string) (v : value) (d : dict) :
  keys (setitem k v d) = if mem k d then keys d else keys d ++ [k].
Proof.
  unfold keys, mem.
  induction d as [| [k0 v0] rest IH]; simpl.
  - reflexivity.
  - destruct (String.eqb k k0) eqn:E; simpl.
    + reflexivity.
    + rewrite IH. destruct (lookup k rest); reflexivity.
Qed.

Lemma lookup_none_not_in (k : string) (d : dict) :
  lookup k d = None -> ~ In k (keys d).
Proof.
  unfold keys.
  induction d as [| [k0 v0] rest IH]; simpl; intros H.
  - tauto.
  - destruct (String.eqb k k0) eqn:E; [discriminate |].
    apply String.eqb_neq in E.
    intros [Heq | Hin]; [congruence | exact (IH H Hin)].
Qed.

(** Keys stay pairwise distinct, so the list is a dictionary again. *)
Lemma setitem_NoDup (k : string) (v : value) (d : dict) :
  NoDup (keys d) -> NoDup (keys (setitem k v d)).
Proof.
  intros Hnd. rewrite keys_setitem. unfold mem.
  destruct (lookup k d) eqn:E; [exact Hnd |].
  apply lookup_none_not_in in E.
  apply NoDup_app; [exact Hnd | repeat constructor; simpl; tauto |].
  intros x Hx [Hk | []]. subst x. exact (E Hx).
Qed.

Lemma fold_setitem_NoDup (kvs : list (string * value)) (d : dict) :
  NoDup (keys d) ->
  NoDup (keys (fold_left (fun d kv => setitem (fst kv) (snd kv) d) kvs d)).
Proof.
  revert d. induction kvs as [| kv kvs IH]; simpl; intros d Hnd.
  - exact Hnd.
  - apply IH, setitem_NoDup, Hnd.
Qed.

Lemma literal_NoDup (kvs : list (string * value)) : NoDup (keys (literal kvs)).
Proof. apply fold_setitem_NoDup. constructor. Qed.

Lemma update_NoDup (d other : dict) :
  NoDup (keys d) -> NoDup (keys (update d other)).
Proof. apply fold_setitem_NoDup. Qed.

Lemma lookup_app (k : string) (d1 d2 : dict) :
  lookup k (d1 ++ d2) =
  match lookup k d1 with Some v => Some v | None => lookup k d2 end.
Proof.
  induction d1 as [| [k0 v0] rest IH]; simpl.
  - reflexivity.
  - destruct (String.eqb k k0); [reflexivity | exact IH].
Qed.

(** After [d.update(other)] a key holds what the last item of [other] with
    that key gives it, and what it held in [d] when [other] has none. *)
Lemma lookup_update (k : string) (d other : dict) :
  lookup k (update d other) =
  match lookup k (rev other) with
  | Some v => Some v
  | None => lookup k d
  end.
Proof.
  unfold update, items. revert d.
  induction other as [| [k0 v0] rest IH]; simpl; intros d.
  - reflexivity.
  - rewrite IH, lookup_app, lookup_setitem. simpl.
    destruct (lookup k (rev rest)); [reflexivity |].
    destruct (String.eqb k k0); reflexivity.
Qed.

Lemma mem_update_mono (k : string) (d other : dict) :
  mem k d = true -> mem k (update d other) = true.
Proof.
  unfold mem. rewrite lookup_update.
  destruct (lookup k (rev other)); [reflexivity | auto].
Qed.

End DictFacts.


(* ================================================================== *)
(** ** The login guard *)

Module GuardProps.
Import Py Dict Decorators.

(** Among [None], booleans, integers and strings, [v == False] holds for
    [False] and for the integer zero, and for nothing else; it never
    raises. *)
Lemma eq_False_scalar (v : value) :
  is_object v = false ->
  exists b : bool,
    eq_False v = Ok b /\ (b = true <-> v = PBool false \/ v = PInt 0).
Proof.
  destruct v as [| b | n | s | o]; simpl; intros Hobj; try discriminate.
  - exists false. split; [reflexivity |].
    split; [discriminate | intros [H | H]; discriminate].
  - destruct b; simpl.
    + exists false. split; [reflexivity |].
      split; [discriminate | intros [H | H]; discriminate].
    + exists true. split; [reflexivity |]. split; auto.
  - exists (n =? 0)%Z. split; [reflexivity |].
    rewrite Z.eqb_eq. split.
    + intros ->. right; reflexivity.
    + intros [H | H]; [discriminate | congruence].
  - exists false. split; [reflexivity |].
    split; [discriminate | intros [H | H]; discriminate].
Qed.

Lemma eq_False_scalar_other (v : value) :
  is_object v = false ->
  v <> PBool false -> v <> PInt 0 -> eq_False v = Ok false.
Proof.
  intros Hobj Hb Hz.
  destruct (eq_False_scalar v Hobj) as [b [Hv Hiff]].
  destruct b; [| exact Hv].
  exfalso. destruct (proj1 Hiff eq_refl); contradiction.
Qed.

Lemma get_present (record : dict) (k : string) (v : value) :
  lookup k record = Some v -> get record k = v.
Proof. unfold get, get_default. intros ->. reflexivity. Qed.

Lemma get_absent (record : dict) (k : string) :
  lookup k record = None -> get record k = PNone.
Proof. unfold get, get_default. intros ->. reflexivity. Qed.

Ltac flag_of H :=
  unfold denied;
  first [ rewrite (get_present _ _ _ H) | rewrite (get_absent _ _ H) ];
  simpl.

(** What the test of the [if] decides, by the state of the attribute. *)
Lemma denied_missing (record : dict) :
  lookup "isLoggedIn" record = None -> denied record = Ok false.
Proof. intros H. flag_of H. reflexivity. Qed.

Lemma denied_false (record : dict) :
  lookup "isLoggedIn" record = Some (PBool false) ->
  denied record = Ok true.
Proof. intros H. flag_of H. reflexivity. Qed.

Lemma denied_true (record : dict) :
  lookup "isLoggedIn" record = Some (PBool true) ->
  denied record = Ok false.
Proof. intros H. flag_of H. reflexivity. Qed.



Section Dispatch.
Context {World Ref : Type} {store : Store World Ref}.
Variable func : py_func World Ref.
Variables (user : Ref) (w : World).

Lemma wrapper_denied :
  denied (deref w user) = Ok true ->
  wrapper func user w = (Return denial_marker, w).
Proof. unfold wrapper. intros ->. reflexivity. Qed.

Lemma wrapper_permitted :
  denied (deref w user) = Ok false -> wrapper func user w = func user w.
Proof. unfold wrapper. intros ->. reflexivity. Qed.

Lemma wrapper_test_raises (e : exn) :
  denied (deref w user) = Err e -> wrapper func user w = (Raise e, w).
Proof. unfold wrapper. intros ->. reflexivity. Qed.

(** Behind a spy, a denial and a failing test leave the counter alone and a
    permission adds exactly one call. *)
Lemma spy_denied (n : nat) :
  denied (deref w user) = Ok true ->
  require_login (spy func) user (Counted w n) =
  (Return denial_marker, Counted w n).
Proof.
  intros H. unfold require_login, wrapper.
  change (deref (Counted w n) user) with (deref w user).
  rewrite H. reflexivity.
Qed.

Lemma spy_permitted (n : nat) :
  denied (deref w user) = Ok false ->
  require_login (spy func) user (Counted w n) =
  (fst (func user w), Counted (snd (func user w)) (S n)).
Proof.
  intros H. unfold require_login, wrapper.
  change (deref (Counted w n) user) with (deref w user).
  rewrite H. unfold spy. simpl. destruct (func user w); reflexivity.
Qed.

Lemma spy_test_raises (n : nat) (e : exn) :
  denied (deref w user) = Err e ->
  require_login (spy func) user (Counted w n) = (Raise e, Counted w n).
Proof.
  intros H. unfold require_login, wrapper.
  change (deref (Counted w n) user) with (deref w user).
  rewrite H. reflexivity.
Qed.

End Dispatch.

(** The script prints the greeting, then the refusal, and leaves the two
    records as they were. *)
Lemma main_prints :
  main globals =
  (["Welcome Dheeraj. Access to the dashboard."; "Access Denied"],
   None, globals).
Proof. reflexivity. Qed.

(** The float [0.0] is turned away like [False]; [None] and the empty
    string are let through. *)
Lemma flags_that_are_not_booleans :
  denied user_none_flag = Ok false /\
  denied user_empty_flag = Ok false /\
  denied user_zero_flag = Ok true /\
  denied user_float_zero_flag = Ok true.
Proof. repeat split. Qed.

(** *** C3: the flag is [False] *)

(** C3. For every identity record whose ["isLoggedIn"] attribute is exactly
    the boolean [False], the guarded operation returns the fixed denial
    marker in an unchanged world, whatever the wrapped operation is, and a
    spy around the wrapped operation counts no call. *)
Theorem guard_false_denies {World Ref : Type} {store : Store World Ref}
    (func : py_func World Ref) (user : Ref) (w : World) :
  lookup "isLoggedIn" (deref w user) = Some (PBool false) ->
  require_login func user w = (Return (PStr "Access Denied"), w) /\
  forall n : nat,
    require_login (spy func) user (Counted w n) =
    (Return (PStr "Access Denied"), Counted w n).
Proof.
  intros H. apply denied_false in H. split.
  - apply wrapper_denied, H.
  - intros n. apply spy_denied, H.
Qed.

Lemma guard_false_denies_witness :
  lookup "isLoggedIn" (deref globals user2) = Some (PBool false) /\
  (require_login logout_op user2 globals =
   (Return (PStr "Access Denied"), globals) /\
   forall n : nat,
     require_login (spy logout_op) user2 (Counted globals n) =
     (Return (PStr "Access Denied"), Counted globals n)).
Proof.
  split;
    [reflexivity
    | apply (guard_false_denies logout_op user2 globals); reflexivity].
Defined.

(** *** C4: the flag is [True] *)

(** C4. For every identity record whose ["isLoggedIn"] attribute is the
    boolean [True], the guarded operation gives exactly what the wrapped
    operation gives for that record: the same returned value (or raised
    exception) and the same world after it. *)
Theorem guard_true_delegates {World Ref : Type} {store : Store World Ref}
    (func : py_func World Ref) (user : Ref) (w : World) :
  lookup "isLoggedIn" (deref w user) = Some (PBool true) ->
  require_login func user w = func user w.
Proof. intros H. apply wrapper_permitted, denied_true, H. Qed.

Lemma guard_true_delegates_witness :
  lookup "isLoggedIn" (deref globals user1) = Some (PBool true) /\
  require_login logout_op user1 globals = logout_op user1 globals.
Proof.
  split;
    [reflexivity
    | apply (guard_true_delegates logout_op user1 globals); reflexivity].
Defined.

(** *** C5 and C6: the two records of the script *)

(** C5. For the record [{"name": "Guest", "isLoggedIn": False}] the guarded
    dashboard operation returns the string ["Access Denied"]. *)
Theorem dashboard_guest_denied {World Ref : Type} {store : Store World Ref}
    (user : Ref) (w : World) :
  deref w user = literal [("name", PStr "Guest"); ("isLoggedIn", PBool false)] ->
  access_dashboard user w = (Return (PStr "Access Denied"), w).
Proof.
  intros H. unfold access_dashboard, require_login, wrapper.
  rewrite H. reflexivity.
Qed.

Lemma dashboard_guest_denied_witness :
  deref globals user2 =
  literal [("name", PStr "Guest"); ("isLoggedIn", PBool false)] /\
  access_dashboard user2 globals = (Return (PStr "Access Denied"), globals).
Proof.
  split; [reflexivity | apply (dashboard_guest_denied user2 globals); reflexivity].
Defined.

(** C6. For the record [{"name": "Dheeraj", "isLoggedIn": True}] the guarded
    dashboard operation returns the string
    ["Welcome Dheeraj. Access to the dashboard."]. *)
Theorem dashboard_dheeraj_welcome {World Ref : Type} {store : Store World Ref}
    (user : Ref) (w : World) :
  deref w user = literal [("name", PStr "Dheeraj"); ("isLoggedIn", PBool true)] ->
  access_dashboard user w =
  (Return (PStr "Welcome Dheeraj. Access to the dashboard."), w).
Proof.
  intros H.
  unfold access_dashboard, require_login, wrapper, access_dashboard_body.
  rewrite H. reflexivity.
Qed.

Lemma dashboard_dheeraj_welcome_witness :
  deref globals user1 =
  literal [("name", PStr "Dheeraj"); ("isLoggedIn", PBool true)] /\
  access_dashboard user1 globals =
  (Return (PStr "Welcome Dheeraj. Access to the dashboard."), globals).
Proof.
  split;
    [reflexivity | apply (dashboard_dheeraj_welcome user1 globals); reflexivity].
Defined.

(** *** C1: no flag at all *)

(** C1, as the code has it. For every identity record with no ["isLoggedIn"]
    key, [get] yields [None], [None == False] is false, and so the guard
    calls the wrapped operation once on that record and passes on what it
    gives, with the world it leaves. *)
Theorem guard_missing_flag_delegates
    {World Ref : Type} {store : Store World Ref}
    (func : py_func World Ref) (user : Ref) (w : World) :
  lookup "isLoggedIn" (deref w user) = None ->
  require_login func user w = func user w /\
  forall n : nat,
    calls (snd (require_login (spy func) user (Counted w n))) = S n.
Proof.
  intros H. apply denied_missing in H. split.
  - apply wrapper_permitted, H.
  - intros n. rewrite (spy_permitted _ _ _ _ H). reflexivity.
Qed.

Lemma guard_missing_flag_delegates_witness :
  lookup "isLoggedIn" (deref [user_without_flag] 0) = None /\
  (require_login logout_op 0 [user_without_flag] =
   logout_op 0 [user_without_flag] /\
   forall n : nat,
     calls (snd (require_login (spy logout_op) 0
                   (Counted [user_without_flag] n))) = S n).
Proof.
  split;
    [reflexivity
    | apply (guard_missing_flag_delegates logout_op 0 [user_without_flag]);
      reflexivity].
Defined.

(** C1 fails as stated: the record [{"name": "Guest"}] has no
    ["isLoggedIn"] key, yet the guarded dashboard greets the caller instead
    of returning the denial marker, and the spy counts one call. *)
Lemma guard_missing_flag_not_denied :
  lookup "isLoggedIn" (deref [user_without_flag] 0) = None /\
  require_login (spy access_dashboard_body) 0 (Counted [user_without_flag] 0) =
  (Return (PStr "Welcome Guest. Access to the dashboard."),
   Counted [user_without_flag] 1) /\
  require_login (spy access_dashboard_body) 0 (Counted [user_without_flag] 0) <>
  (Return (PStr "Access Denied"), Counted [user_without_flag] 0).
Proof.
  split; [reflexivity | split; [reflexivity | discriminate]].
Qed.

(** *** C2: a flag that is not [False] *)




(** *** C7: two calls in a row *)




(** *** C8: where a failure can come from *)




End GuardProps.

(* ================================================================== *)
(** ** The dictionary walkthrough *)

Module DictionaryProps.
Import Py Dict Dictionary DictFacts.

(** The comments of the script, line by line. *)
Lemma person_views :
  objKeys person = ["name"; "age"] /\
  values person = [PStr "Alice"; PInt 25] /\
  items person = [("name", PStr "Alice"); ("age", PInt 25)] /\
  get_age person = PInt 25 /\
  get_city person = PStr "NA".
Proof. repeat split. Qed.

(** The view taken before the update shows the new key after it. *)
Lemma objKeys_is_live : objKeys person_final = ["name"; "age"; "city"].
Proof. reflexivity. Qed.

Lemma lookup_person_final (k : string) :
  lookup k person_final =
  if String.eqb k "city" then Some (PStr "NY") else lookup k person.
Proof.
  unfold person_final, update_city. rewrite lookup_update.
  change (rev (literal [("city", PStr "NY")])) with [("city", PStr "NY")].
  simpl lookup at 1.
  destruct (String.eqb k "city"); reflexivity.
Qed.

(** C9. After [person.update({"city": "NY"})] on
    [{"name": "Alice", "age": 25}], ["name"] and ["age"] still map to
    ["Alice"] and [25], every key of the mapping before is a key after,
    ["city"] maps to ["NY"], and every key other than ["city"] maps to what
    it mapped to before; the updated object is
    [{"name": "Alice", "age": 25, "city": "NY"}], in that order. *)
Theorem update_city_changes_only_city :
  lookup "name" person_final = Some (PStr "Alice") /\
  lookup "age" person_final = Some (PInt 25) /\
  lookup "city" person_final = Some (PStr "NY") /\
  incl (keys person) (keys person_final) /\
  (forall k : string,
     lookup k person_final =
     if String.eqb k "city" then Some (PStr "NY") else lookup k person) /\
  person_final =
  literal [("name", PStr "Alice"); ("age", PInt 25); ("city", PStr "NY")].
Proof.
  repeat split; try reflexivity.
  - intros k Hin. simpl in *. tauto.
  - exact lookup_person_final.
Qed.

End DictionaryProps.

(* ================================================================== *)
(** ** The lambda examples *)

Module LambdaProps.
Import LambdaPractice.

Local Open Scope Z_scope.

Lemma repeated_product_pow (x : Z) (k : nat) :
  repeated_product x k = x ^ Z.of_nat k.
Proof.
  induction k as [| k IH].
  - reflexivity.
  - rewrite Nat2Z.inj_succ, Z.pow_succ_r by apply Nat2Z.is_nonneg.
    simpl. rewrite IH. reflexivity.
Qed.

Lemma py_pow_nonneg (x n : Z) :
  0 <= n -> py_pow x n = IntResult (repeated_product x (Z.to_nat n)).
Proof.
  intros Hn. unfold py_pow.
  destruct (Z.ltb_spec n 0) as [Hlt | _]; [lia |].
  rewrite repeated_product_pow, Z2Nat.id by exact Hn. reflexivity.
Qed.

(** The commented-out calls of the script. *)
Lemma lambda_examples :
  square 5 = 25 /\ add 3 4 = 7 /\
  square_by_power 3 = IntResult 9 /\ cube 3 = IntResult 27 /\
  squares = [IntResult 1; IntResult 4; IntResult 9; IntResult 16].
Proof. repeat split. Qed.

(** C10. For every integer [x] and exponent [n], the closure [power(n)]
    applied to [x] is [x ** n]: for [n >= 0] the integer product of [n]
    copies of [x], and for [n < 0] what [**] gives outside the integers
    ([OverflowError] when [x] or [n] is too large for a float,
    [ZeroDivisionError] for a zero base, a float otherwise).  In particular
    [power(2)] agrees with the anonymous [square] everywhere:
    [power(2)(x) = x * x]. *)
Theorem power_closure_is_exponentiation (x n : Z) :
  (0 <= n -> power n x = IntResult (repeated_product x (Z.to_nat n))) /\
  (n < 0 ->
   power n x =
   if negb (fits_float x) || negb (fits_float n) then OverflowError
   else if x =? 0 then ZeroDivisionError
   else FloatPow x n) /\
  power 2 x = IntResult (square x) /\
  square x = x * x.
Proof.
  unfold power. repeat split.
  - apply py_pow_nonneg.
  - intros Hn. unfold py_pow.
    destruct (Z.ltb_spec n 0) as [_ | Hge]; [| lia].
    destruct (fits_float x), (fits_float n); reflexivity.
  - unfold py_pow, square. simpl. f_equal. apply Z.pow_2_r.
Qed.

Lemma power_closure_is_exponentiation_witness :
  0 <= 3 /\ power 3 4 = IntResult (repeated_product 4 (Z.to_nat 3)).
Proof.
  split; [lia |].
  apply (proj1 (power_closure_is_exponentiation 4 3)). lia.
Defined.

End LambdaProps.

(* ================================================================== *)
(** ** More on dictionaries: literals, views and [update] *)

Module DictLaws.
Import Py Dict Dictionary DictFacts.

Lemma not_in_lookup_none (k : string) (d : dict) :
  ~ In k (keys d) -> lookup k d = None.
Proof.
  unfold keys. induction d as [| [k0 v0] rest IH]; simpl; intros Hnin.
  - reflexivity.
  - destruct (String.eqb_spec k k0) as [-> | Hne].
    + exfalso. apply Hnin. left; reflexivity.
    + apply IH. intros Hin. apply Hnin. right; exact Hin.
Qed.


Lemma keys_rev (d : dict) : keys (rev d) = rev (keys d).
Proof. unfold keys. apply map_rev. Qed.

(** Among distinct keys it does not matter from which end one searches. *)
Lemma lookup_rev_NoDup (k : string) (d : dict) :
  NoDup (keys d) -> lookup k (rev d) = lookup k d.
Proof.
  induction d as [| [k0 v0] rest IH]; simpl; intros Hnd.
  - reflexivity.
  - inversion Hnd as [| ? ? Hnin Hrest]; subst.
    rewrite lookup_app, (IH Hrest). simpl.
    destruct (String.eqb_spec k k0) as [-> | Hne].
    + change (map fst rest) with (keys rest) in Hnin.
      rewrite (not_in_lookup_none _ _ Hnin). reflexivity.
    + destruct (lookup k rest); reflexivity.
Qed.

(** Storing a key that is not there appends it. *)
Lemma setitem_fresh (k : string) (v : value) (d : dict) :
  lookup k d = None -> setitem k v d = d ++ [(k, v)].
Proof.
  induction d as [| [k0 v0] rest IH]; simpl; intros H.
  - reflexivity.
  - destruct (String.eqb k k0); [discriminate |].
    rewrite (IH H). reflexivity.
Qed.

Lemma fold_setitem_fresh (kvs : list (string * value)) (d : dict) :
  NoDup (keys d ++ map fst kvs) ->
  fold_left (fun d kv => setitem (fst kv) (snd kv) d) kvs d = d ++ kvs.
Proof.
  revert d. induction kvs as [| [k v] kvs IH]; simpl; intros d Hnd.
  - rewrite app_nil_r. reflexivity.
  - assert (Hfresh : lookup k d = None).
    { apply not_in_lookup_none. intros Hin.
      apply NoDup_remove_2 in Hnd. apply Hnd.
      apply in_or_app. left; exact Hin. }
    rewrite (setitem_fresh _ _ _ Hfresh), IH.
    + rewrite <- app_assoc. reflexivity.
    + unfold keys in *. rewrite map_app, <- app_assoc. simpl. exact Hnd.
Qed.

(** Two dictionaries with the same keys in the same order and the same
    value at every key are the same dictionary. *)
Lemma dict_ext (d1 d2 : dict) :
  keys d1 = keys d2 ->
  NoDup (keys d1) ->
  (forall k : string, lookup k d1 = lookup k d2) ->
  d1 = d2.
Proof.
  revert d2. induction d1 as [| [k1 v1] r1 IH]; intros [| [k2 v2] r2];
    simpl; intros Hk Hnd Hl; try discriminate.
  - reflexivity.
  - injection Hk as -> Hk. inversion Hnd as [| ? ? Hnin Hrest]; subst.
    pose proof (Hl k2) as Hhead. rewrite String.eqb_refl in Hhead.
    injection Hhead as ->. f_equal.
    apply IH; [exact Hk | exact Hrest |].
    intros k. destruct (String.eqb_spec k k2) as [-> | Hne].
    + change (map fst r1) with (keys r1) in Hnin.
      rewrite (not_in_lookup_none _ _ Hnin).
      rewrite Hk in Hnin. rewrite (not_in_lookup_none _ _ Hnin). reflexivity.
    + specialize (Hl k). apply String.eqb_neq in Hne.
      rewrite Hne in Hl. exact Hl.
Qed.

Lemma keys_update_present (d other : dict) :
  (forall k : string, In k (keys other) -> mem k d = true) ->
  keys (update d other) = keys d.
Proof.
  unfold update, items. revert d.
  induction other as [| [k v] rest IH]; simpl; intros d Hall.
  - reflexivity.
  - rewrite IH.
    + rewrite keys_setitem, (Hall k) by (left; reflexivity). reflexivity.
    + intros k' Hin. apply mem_setitem_mono, Hall. right; exact Hin.
Qed.

Lemma mem_update_arg (k : string) (d other : dict) :
  In k (keys other) -> mem k (update d other) = true.
Proof.
  intros Hin. unfold mem. rewrite lookup_update.
  destruct (lookup k (rev other)) eqn:E; [reflexivity |].
  exfalso. apply lookup_none_not_in in E. apply E.
  rewrite keys_rev. apply in_rev in Hin. exact Hin.
Qed.

Lemma update_city_setitem (p : dict) :
  update_city p = setitem "city" (PStr "NY") p.
Proof. reflexivity. Qed.

(** Of two writes to one key the later one stands. *)
Lemma setitem_setitem_same (k : string) (v1 v2 : value) (d : dict) :
  setitem k v2 (setitem k v1 d) = setitem k v2 d.
Proof.
  induction d as [| [k0 v0] rest IH]; simpl.
  - rewrite String.eqb_refl. reflexivity.
  - destruct (String.eqb k k0) eqn:E; simpl; rewrite E.
    + reflexivity.
    + rewrite IH. reflexivity.
Qed.

(** *** Literals *)

(** X7. A dictionary literal whose keys are pairwise distinct is stored as
    it is written: the same items in the same order. *)
Theorem literal_distinct_keys_as_written (kvs : list (string * value)) :
  NoDup (map fst kvs) -> items (literal kvs) = kvs.
Proof.
  intros Hnd. unfold items, literal.
  rewrite fold_setitem_fresh; [reflexivity | exact Hnd].
Qed.

Lemma literal_distinct_keys_as_written_witness :
  NoDup (map fst [("name", PStr "Alice"); ("age", PInt 25)]) /\
  items (literal [("name", PStr "Alice"); ("age", PInt 25)]) =
  [("name", PStr "Alice"); ("age", PInt 25)].
Proof.
  assert (Hnd : NoDup (map fst [("name", PStr "Alice"); ("age", PInt 25)])).
  { simpl. repeat constructor; simpl; intuition discriminate. }
  split; [exact Hnd |].
  apply (literal_distinct_keys_as_written
           [("name", PStr "Alice"); ("age", PInt 25)] Hnd).
Defined.

(** X8. In a dictionary literal that writes a key more than once the last
    value written stands, and the keys of the dictionary built are pairwise
    distinct whatever was written. *)
Theorem literal_last_write_wins (kvs : list (string * value)) (k : string) :
  lookup k (literal kvs) = lookup k (rev kvs) /\
  NoDup (keys (literal kvs)).
Proof.
  split.
  - change (literal kvs) with (update [] kvs). rewrite lookup_update.
    destruct (lookup k (rev kvs)); reflexivity.
  - apply fold_setitem_NoDup. constructor.
Qed.

(** *** The three views *)

(** X13. [keys()] and [values()] are aligned: they have the same length and
    pairing them position by position gives [items()]. *)
Theorem views_aligned (d : dict) :
  combine (keys d) (values d) = items d /\
  length (keys d) = length (values d).
Proof.
  unfold keys, values, items. split.
  - induction d as [| [k v] rest IH]; simpl; [| rewrite IH]; reflexivity.
  - rewrite !length_map. reflexivity.
Qed.

(** *** [update] *)

(** X9. After [d.update(other)], the safe lookup [d.get(k, x)] gives what
    [other] holds at [k], and for a key [other] does not have, what
    [d.get(k, x)] gave before the update. *)
Theorem get_after_update (d other : dict) (k : string) (x : value) :
  NoDup (keys other) ->
  get_default (update d other) k x =
  get_default other k (get_default d k x).
Proof.
  intros Hnd. unfold get_default.
  rewrite lookup_update, (lookup_rev_NoDup _ _ Hnd).
  destruct (lookup k other); reflexivity.
Qed.

Lemma get_after_update_witness :
  NoDup (keys [("city", PStr "NY")]) /\
  get_default (update person [("city", PStr "NY")]) "city" (PStr "NA") =
  get_default [("city", PStr "NY")] "city"
    (get_default person "city" (PStr "NA")).
Proof.
  assert (Hnd : NoDup (keys [("city", PStr "NY")])).
  { simpl. repeat constructor; simpl; tauto. }
  split; [exact Hnd |].
  apply (get_after_update person [("city", PStr "NY")] "city" (PStr "NA") Hnd).
Defined.

(** X10. [d.update(other)] removes and moves no key: the keys of [d] stay
    where they are, and the keys that come after them are keys of [other]
    that [d] did not have. *)
Theorem update_keeps_keys_in_place (d other : dict) :
  exists added : list string,
    keys (update d other) = keys d ++ added /\
    forall k : string,
      In k added -> In k (keys other) /\ mem k d = false.
Proof.
  unfold update, items. revert d.
  induction other as [| [k v] rest IH]; simpl; intros d.
  - exists []. rewrite app_nil_r. split; [reflexivity | intros k []].
  - destruct (IH (setitem k v d)) as [added [Hkeys Hadded]].
    rewrite Hkeys, keys_setitem.
    destruct (mem k d) eqn:Hm.
    + exists added. split; [reflexivity |].
      intros k' Hin. destruct (Hadded k' Hin) as [Hin' Hm'].
      split; [right; exact Hin' |].
      destruct (mem k' d) eqn:E; [| reflexivity].
      rewrite (mem_setitem_mono k k' v d E) in Hm'. discriminate.
    + exists (k :: added). rewrite <- app_assoc. split; [reflexivity |].
      intros k' [<- | Hin]; [split; [left; reflexivity | exact Hm] |].
      destruct (Hadded k' Hin) as [Hin' Hm'].
      split; [right; exact Hin' |].
      destruct (mem k' d) eqn:E; [| reflexivity].
      rewrite (mem_setitem_mono k k' v d E) in Hm'. discriminate.
Qed.

(** X11. [update] keeps the keys of a dictionary pairwise distinct. *)
Theorem update_keeps_keys_distinct (d other : dict) :
  NoDup (keys d) -> NoDup (keys (update d other)).
Proof. intros Hnd. unfold update. apply fold_setitem_NoDup, Hnd. Qed.

Lemma update_keeps_keys_distinct_witness :
  NoDup (keys person) /\
  NoDup (keys (update person [("age", PInt 26); ("city", PStr "NY")])).
Proof.
  assert (Hnd : NoDup (keys person)).
  { simpl. repeat constructor; simpl; intuition discriminate. }
  split; [exact Hnd |].
  apply (update_keeps_keys_distinct
           person [("age", PInt 26); ("city", PStr "NY")] Hnd).
Defined.

(** X12. Updating twice with the same argument is the same as updating
    once. *)
Theorem update_idempotent (d other : dict) :
  NoDup (keys d) ->
  update (update d other) other = update d other.
Proof.
  intros Hnd. apply dict_ext.
  - apply keys_update_present. intros k Hin. apply mem_update_arg, Hin.
  - unfold update at 1. apply fold_setitem_NoDup.
    unfold update. apply fold_setitem_NoDup, Hnd.
  - intros k. rewrite !lookup_update.
    destruct (lookup k (rev other)); reflexivity.
Qed.

Lemma update_idempotent_witness :
  NoDup (keys person) /\
  update (update person [("age", PInt 26); ("city", PStr "NY")])
         [("age", PInt 26); ("city", PStr "NY")] =
  update person [("age", PInt 26); ("city", PStr "NY")].
Proof.
  assert (Hnd : NoDup (keys person)).
  { simpl. repeat constructor; simpl; intuition discriminate. }
  split; [exact Hnd |].
  apply (update_idempotent
           person [("age", PInt 26); ("city", PStr "NY")] Hnd).
Defined.

(** *** The safe lookup *)



(** *** The update of the script, on any object *)

(** X14. Whatever mapping [person] is bound to, the key view after
    [person.update({"city": "NY"})] is the view before when ["city"] was a
    key already, and the view before with ["city"] added at the end when it
    was not. *)
Theorem update_city_key_view (p : dict) :
  objKeys (update_city p) =
  if mem "city" p then objKeys p else objKeys p ++ ["city"].
Proof. unfold objKeys. rewrite update_city_setitem. apply keys_setitem. Qed.

(** X15. Whatever mapping [person] is bound to, after the update the safe
    lookup of ["city"] gives ["NY"] and never the default, the safe lookup
    of ["age"] gives what it gave before, and running the update again
    changes nothing. *)
Theorem update_city_lookups (p : dict) :
  get_city (update_city p) = PStr "NY" /\
  get_age (update_city p) = get_age p /\
  update_city (update_city p) = update_city p.
Proof.
  rewrite !update_city_setitem. unfold get_city, get_age, get_default.
  split; [| split].
  - rewrite lookup_setitem_same. reflexivity.
  - rewrite lookup_setitem_other by discriminate. reflexivity.
  - apply setitem_setitem_same.
Qed.

End DictLaws.

(* ================================================================== *)
(** ** More on the login guard *)

Module GuardLaws.
Import Py Dict Decorators DictFacts GuardProps.

Local Open Scope Z_scope.

Lemma spy_calls {World Ref : Type} {store : Store World Ref}
    (func : py_func World Ref) (user : Ref) (w : World) (n : nat) :
  calls (snd (require_login (spy func) user (Counted w n))) =
  match denied (deref w user) with
  | Ok false => S n
  | _ => n
  end.
Proof.
  destruct (denied (deref w user)) as [[|] | e] eqn:Hd.
  - rewrite (spy_denied _ _ _ _ Hd). reflexivity.
  - rewrite (spy_permitted _ _ _ _ Hd). reflexivity.
  - rewrite (spy_test_raises _ _ _ _ _ Hd). reflexivity.
Qed.

Lemma dashboard_outcome {World Ref : Type} {store : Store World Ref}
    (user : Ref) (w : World) :
  denied (deref w user) = Ok false ->
  access_dashboard user w = access_dashboard_body user w.
Proof.
  intros Hd. unfold access_dashboard, require_login.
  apply wrapper_permitted, Hd.
Qed.

(** X1. The guard calls the wrapped operation exactly once when the test
    [user.get("isLoggedIn") == False] is false, and not at all when the
    test is true or raises.  On a record whose attribute is missing or is
    [None], a boolean, an integer or a string, the wrapped operation is
    kept from being called exactly when the attribute is [False] or the
    integer [0]. *)
Theorem guard_blocks_exactly_when_equal_False
    {World Ref : Type} {store : Store World Ref}
    (func : py_func World Ref) (user : Ref) (w : World) (n : nat) :
  (calls (snd (require_login (spy func) user (Counted w n))) = S n <->
   denied (deref w user) = Ok false) /\
  (calls (snd (require_login (spy func) user (Counted w n))) = n <->
   denied (deref w user) <> Ok false) /\
  (is_object (get (deref w user) "isLoggedIn") = false ->
   (calls (snd (require_login (spy func) user (Counted w n))) = n <->
    lookup "isLoggedIn" (deref w user) = Some (PBool false) \/
    lookup "isLoggedIn" (deref w user) = Some (PInt 0))).
Proof.
  rewrite spy_calls. split; [| split].
  - destruct (denied (deref w user)) as [[|] | e]; split; intros H;
      try reflexivity; try discriminate; exfalso; lia.
  - destruct (denied (deref w user)) as [[|] | e]; split; intros H;
      try reflexivity; try discriminate.
    + exfalso. lia.
    + exfalso. apply H. reflexivity.
  - unfold denied, get, get_default.
    destruct (lookup "isLoggedIn" (deref w user)) as [v |]; simpl.
    + destruct v as [| [|] | z | t | o]; simpl; intros Hobj;
        try discriminate Hobj.
      * split; [intros H; exfalso; lia | intros [H | H]; discriminate].
      * split; [intros H; exfalso; lia | intros [H | H]; discriminate].
      * split; [intros _; left; reflexivity | reflexivity].
      * destruct (Z.eqb_spec z 0) as [-> | Hz].
        -- split; [intros _; right; reflexivity | reflexivity].
        -- split; [intros H; exfalso; lia |].
           intros [H | H]; [discriminate | congruence].
      * split; [intros H; exfalso; lia | intros [H | H]; discriminate].
    + intros _.
      split; [intros H; exfalso; lia | intros [H | H]; discriminate].
Qed.


(** X3. A record that is let through and whose name is an integer of more
    than 4300 decimal digits makes the guarded dashboard raise
    [ValueError]: the f-string refuses to turn the integer into text.  The
    world is left as it was. *)
Theorem access_dashboard_huge_integer_name
    {World Ref : Type} {store : Store World Ref}
    (user : Ref) (w : World) (n : Z) :
  lookup "name" (deref w user) = Some (PInt n) ->
  denied (deref w user) = Ok false ->
  10 ^ int_max_str_digits <= Z.abs n ->
  access_dashboard user w = (Raise int_str_error, w).
Proof.
  intros Hname Hd Hbig. rewrite (dashboard_outcome _ _ Hd).
  unfold access_dashboard_body. rewrite (get_present _ _ _ Hname).
  unfold py_str. apply Z.ltb_ge in Hbig. rewrite Hbig. reflexivity.
Qed.

Lemma access_dashboard_huge_integer_name_witness :
  lookup "name"
    (deref [literal [("name", PInt (10 ^ int_max_str_digits)); ("isLoggedIn", PBool true)]]
           0%nat) = Some (PInt (10 ^ int_max_str_digits)) /\
  denied
    (deref [literal [("name", PInt (10 ^ int_max_str_digits)); ("isLoggedIn", PBool true)]]
           0%nat) = Ok false /\
  10 ^ int_max_str_digits <= Z.abs (10 ^ int_max_str_digits) /\
  access_dashboard 0%nat
    [literal [("name", PInt (10 ^ int_max_str_digits)); ("isLoggedIn", PBool true)]] =
  (Raise int_str_error,
   [literal [("name", PInt (10 ^ int_max_str_digits)); ("isLoggedIn", PBool true)]]).
Proof.
  assert (Hbig : 10 ^ int_max_str_digits <= Z.abs (10 ^ int_max_str_digits)).
  { rewrite Z.abs_eq by (apply Z.pow_nonneg; lia). apply Z.le_refl. }
  split; [reflexivity |]. split; [reflexivity |]. split; [exact Hbig |].
  apply (access_dashboard_huge_integer_name
           0%nat
           [literal [("name", PInt (10 ^ int_max_str_digits)); ("isLoggedIn", PBool true)]]
           (10 ^ int_max_str_digits));
    [reflexivity | reflexivity | exact Hbig].
Defined.

(** X4. A record that is let through and has no ["name"] key is greeted as
    [None]: the lookup by [get] gives [None] instead of failing. *)
Theorem access_dashboard_without_name
    {World Ref : Type} {store : Store World Ref} (user : Ref) (w : World) :
  lookup "name" (deref w user) = None ->
  denied (deref w user) = Ok false ->
  access_dashboard user w =
  (Return (PStr "Welcome None. Access to the dashboard."), w).
Proof.
  intros Hname Hd. rewrite (dashboard_outcome _ _ Hd).
  unfold access_dashboard_body.
  rewrite (get_absent _ _ Hname). reflexivity.
Qed.

Lemma access_dashboard_without_name_witness :
  lookup "name" (deref [literal [("isLoggedIn", PBool true)]] 0%nat) = None /\
  denied (deref [literal [("isLoggedIn", PBool true)]] 0%nat) = Ok false /\
  access_dashboard 0%nat [literal [("isLoggedIn", PBool true)]] =
  (Return (PStr "Welcome None. Access to the dashboard."),
   [literal [("isLoggedIn", PBool true)]]).
Proof.
  split; [reflexivity |]. split; [reflexivity |].
  apply (access_dashboard_without_name
           0%nat [literal [("isLoggedIn", PBool true)]]); reflexivity.
Defined.

(** X6. Only the login attribute counts: assigning any other key of a
    record leaves the decision of the guard as it was, and assigning
    ["isLoggedIn"] makes the decision that of the new value alone. *)
Theorem denied_after_assignment (record : dict) (k : string) (v : value) :
  denied (setitem k v record) =
  if String.eqb k "isLoggedIn" then eq_False v
  else denied record.
Proof.
  unfold denied, get, get_default. rewrite lookup_setitem.
  rewrite (String.eqb_sym "isLoggedIn" k).
  destruct (String.eqb k "isLoggedIn"); reflexivity.
Qed.

End GuardLaws.

(* ================================================================== *)
(** ** More on the lambda examples *)

Module PowerLaws.
Import LambdaPractice LambdaProps.

Local Open Scope Z_scope.

Lemma power_nonneg (x n : Z) : 0 <= n -> power n x = IntResult (x ^ n).
Proof.
  intros Hn. unfold power, py_pow.
  destruct (Z.ltb_spec n 0) as [Hlt | _]; [lia | reflexivity].
Qed.

(** X16. [power(n)(x)] is an integer exactly when the exponent [n] is not
    negative. *)
Theorem power_integer_iff_nonneg (x n : Z) :
  (exists z : Z, power n x = IntResult z) <-> 0 <= n.
Proof.
  split.
  - intros [z H]. unfold power, py_pow in H.
    destruct (Z.ltb_spec n 0) as [Hlt | Hge]; [| exact Hge].
    destruct (fits_float x), (fits_float n), (x =? 0); discriminate.
  - intros Hn. exists (x ^ n). apply power_nonneg, Hn.
Qed.

(** X17. Exponents add: for exponents that are not negative,
    [power(m + n)(x)] is the product of [power(m)(x)] and [power(n)(x)]. *)
Theorem power_add (x m n a b : Z) :
  0 <= m -> 0 <= n ->
  power m x = IntResult a ->
  power n x = IntResult b ->
  power (m + n) x = IntResult (a * b).
Proof.
  intros Hm Hn Ha Hb.
  rewrite power_nonneg in Ha by exact Hm.
  rewrite power_nonneg in Hb by exact Hn.
  injection Ha as <-. injection Hb as <-.
  rewrite power_nonneg by lia. rewrite Z.pow_add_r by assumption.
  reflexivity.
Qed.

Lemma power_add_witness :
  0 <= 1 /\ 0 <= 2 /\
  power 1 5 = IntResult 5 /\
  power 2 5 = IntResult 25 /\
  power (1 + 2) 5 = IntResult (5 * 25).
Proof.
  split; [lia |]. split; [lia |].
  split; [reflexivity |]. split; [reflexivity |].
  apply (power_add 5 1 2 5 25); [lia | lia | reflexivity | reflexivity].
Defined.

(** X18. Closures compose: for exponents that are not negative, applying
    [power(n)] to the result of [power(m)(x)] is [power(m * n)(x)]. *)
Theorem power_compose (x m n y : Z) :
  0 <= m -> 0 <= n ->
  power m x = IntResult y ->
  power n y = power (m * n) x.
Proof.
  intros Hm Hn Hy.
  rewrite power_nonneg in Hy by exact Hm. injection Hy as <-.
  rewrite !power_nonneg by nia.
  rewrite Z.pow_mul_r by assumption. reflexivity.
Qed.

Lemma power_compose_witness :
  0 <= 2 /\ 0 <= 3 /\
  square_by_power 2 = IntResult 4 /\
  cube 4 = power (2 * 3) 2.
Proof.
  split; [lia |]. split; [lia |]. split; [reflexivity |].
  apply (power_compose 2 2 3 4); [lia | lia | reflexivity].
Defined.

(** X19. [cube(x)] is [x] times the square of [x], for every integer. *)
Theorem cube_is_x_times_square (x : Z) :
  cube x = IntResult (x * square x).
Proof.
  unfold cube, square. rewrite power_nonneg by lia. f_equal.
  change 3 with (Z.succ 2). rewrite Z.pow_succ_r by lia.
  rewrite Z.pow_2_r. reflexivity.
Qed.

(** X20. Mapping [lambda x: x**2] over any list of integers gives the list
    of their squares, one for one and in order: all results are integers
    that are not negative, and nothing is dropped. *)
Theorem map_square_pointwise (l : list Z) :
  map (fun x => py_pow x 2) l = map (fun x => IntResult (square x)) l /\
  length (map (fun x => py_pow x 2) l) = length l /\
  Forall (fun r => exists z, r = IntResult z /\ 0 <= z)
         (map (fun x => py_pow x 2) l).
Proof.
  assert (Hpt : forall x, py_pow x 2 = IntResult (square x)).
  { intros x. unfold py_pow, square. simpl. f_equal. apply Z.pow_2_r. }
  split; [| split].
  - apply map_ext. exact Hpt.
  - apply length_map.
  - apply Forall_forall. intros r Hin.
    apply in_map_iff in Hin. destruct Hin as [x [<- _]].
    exists (square x). split; [apply Hpt |]. unfold square. nia.
Qed.

End PowerLaws.
